(** * set_lost_mode.py: batch dispatch of lost-mode commands

    A shallow embedding of [src/set_lost_mode.py] and the properties of its
    batch dispatcher.  The script reads a CSV of mobile devices and, per row,
    builds an XML command with [xml.etree.ElementTree], posts it with
    [requests.post] and prints diagnostics.

    What the script does to the outside world is recorded as a trace of
    events (prompts, printed lines, HTTP posts).  Python exceptions are an
    explicit outcome of every computation; the [ElementTree] objects live in
    an object store, because the script builds its document by mutating
    elements it has already attached to their parent. *)

From Stdlib Require Import ZArith Lia Ascii String.
From stdpp Require Import base option list strings gmap pretty.

Local Open Scope string_scope.
Local Open Scope list_scope.
Local Open Scope Z_scope.

(** ** Python values and exceptions *)

(** A CSV cell, and the text of an XML element: a Python [str], or [None]. *)
Abbreviation value := (option string).

(** [str(v)], as an f-string renders a cell. *)
Definition str (v : value) : string :=
  match v with
  | Some s => s
  | None => "None"
  end.

(** The exceptions the script can meet.  [SystemExit] is what [sys.exit]
    raises; it is the only one that is not a subclass of [Exception]. *)
Inductive exn : Type :=
| KeyError (key : string)
| HTTPError (msg : string)
| RequestException (msg : string)
| RecursionError
| SystemExit (code : Z).

Definition is_Exception (e : exn) : bool :=
  match e with
  | SystemExit _ => false
  | _ => true
  end.

Definition is_KeyError (e : exn) : bool :=
  match e with
  | KeyError _ => true
  | _ => false
  end.

Definition is_HTTPError (e : exn) : bool :=
  match e with
  | HTTPError _ => true
  | _ => false
  end.

(** [str(e)] for the one exception the script prints. *)
Definition exn_str (e : exn) : string :=
  match e with
  | KeyError k => "'" ++ k ++ "'"
  | HTTPError m => m
  | RequestException m => m
  | RecursionError => "maximum recursion depth exceeded"
  | SystemExit c => pretty c
  end.

(** ** The XML documents of [ElementTree] *)

(** An element as a value: tag, text, children in document order. *)
#[warnings="-register-all"]
Inductive xml : Type :=
| Xml (tag : string) (text : value) (children : list xml).

Definition xml_tag (t : xml) : string := let 'Xml tg _ _ := t in tg.
Definition xml_text (t : xml) : value := let 'Xml _ tx _ := t in tx.
Definition xml_children (t : xml) : list xml := let 'Xml _ _ cs := t in cs.

(** An [Element] object in the store: its children are references. *)
Record node : Type := Node {
  tag : string;
  text : value;
  kids : list nat
}.

Definition add_kid (k : nat) (n : node) : node :=
  {| tag := tag n; text := text n; kids := kids n ++ [k] |}.

Definition with_text (v : value) (n : node) : node :=
  {| tag := tag n; text := v; kids := kids n |}.

(** The element tree that hangs from a reference.  The fuel bounds the
    depth of the walk, as the interpreter's recursion limit does. *)
Fixpoint tree_of (fuel : nat) (h : list node) (id : nat) : option xml :=
  match fuel with
  | O => None
  | S fuel' =>
      match h !! id with
      | None => None
      | Some n =>
          match mapM (tree_of fuel' h) (kids n) with
          | None => None
          | Some cs => Some (Xml (tag n) (text n) cs)
          end
      end
  end.

(** ** HTTP *)

Record http_request : Type := Request {
  url : string;
  auth : string * string;
  data : string
}.

(** What the script reads of a [requests.Response]. *)
Record Response : Type := mkResponse {
  status_code : Z;
  reason : string;
  resp_url : string
}.

(** ** The world: what was done so far, and the live objects *)

(** What a run does that can be seen from outside: [input(prompt)],
    [getpass()], [print(line)], and a call of [requests.post], whether or
    not it reaches the service. *)
Inductive event : Type :=
| Prompted (prompt : string)
| Getpass
| Printed (line : string)
| Posted (req : http_request).

Record world : Type := World {
  trace : list event;
  heap : list node
}.

Definition initial : world := {| trace := []; heap := [] |}.

Definition posts_of (tr : list event) : list http_request :=
  omap (fun ev => match ev with Posted r => Some r | _ => None end) tr.

Definition prints_of (tr : list event) : list string :=
  omap (fun ev => match ev with Printed s => Some s | _ => None end) tr.

(** ** Computations: state passing with exceptions *)

Inductive outcome (A : Type) : Type :=
| Return (a : A)
| Raise (e : exn).
Arguments Return {A} a.
Arguments Raise {A} e.

Definition M (A : Type) : Type := world -> outcome A * world.

Definition ret {A} (a : A) : M A := fun w => (Return a, w).

Definition raise {A} (e : exn) : M A := fun w => (Raise e, w).

Definition bind {A B} (m : M A) (k : A -> M B) : M B :=
  fun w =>
    match m w with
    | (Return a, w') => k a w'
    | (Raise e, w') => (Raise e, w')
    end.

(** [try: m  except C as e: handler e], where [C] is the class test. *)
Definition try_except {A} (m : M A) (C : exn -> bool) (handler : exn -> M A) : M A :=
  fun w =>
    match m w with
    | (Return a, w') => (Return a, w')
    | (Raise e, w') => if C e then handler e w' else (Raise e, w')
    end.

Declare Scope py_scope.
Delimit Scope py_scope with py.
Notation "'let*' x ':=' m 'in' k" := (bind m (fun x => k))
  (at level 10, x name, m at level 100, k at level 200) : py_scope.
Notation "m ;; k" := (bind m (fun _ => k))
  (at level 100, k at level 200, right associativity) : py_scope.
Local Open Scope py_scope.

Definition emit (ev : event) : M unit :=
  fun w => (Return tt, {| trace := trace w ++ [ev]; heap := heap w |}).

Definition print (line : string) : M unit := emit (Printed line).

Definition sys_exit {A} (code : Z) : M A := raise (SystemExit code).

(** *** [ElementTree] on the object store *)

(** [ElementTree.Element(tag)] *)
Definition Element (tg : string) : M nat :=
  fun w =>
    (Return (length (heap w)),
     {| trace := trace w; heap := heap w ++ [Node tg None []] |}).

(** [ElementTree.SubElement(parent, tag)]: a new element, appended to the
    children of [parent]. *)
Definition SubElement (parent : nat) (tg : string) : M nat :=
  fun w =>
    let id := length (heap w) in
    (Return id,
     {| trace := trace w;
        heap := alter (add_kid id) parent (heap w) ++ [Node tg None []] |}).

(** [elem.text = v] *)
Definition set_text (id : nat) (v : value) : M unit :=
  fun w =>
    (Return tt, {| trace := trace w; heap := alter (with_text v) id (heap w) |}).

(** [ElementTree(root).getroot()], taken as a value: the tree that hangs
    from the root at this moment, which is what the serializer walks. *)
Definition getroot (id : nat) : M xml :=
  fun w =>
    match tree_of (length (heap w)) (heap w) id with
    | Some t => (Return t, w)
    | None => (Raise RecursionError, w)
    end.

(** ** The script *)

(** [JAMF_URL], the module's global. *)
Definition JAMF_URL : string := "https://myorg.jamfcloud.com".

(** [Response.raise_for_status()], as the requests library defines it,
    builds this message: a client error for a status from 400 to 499, a
    server error from 500 to 599, and the empty string for any other
    status. *)
Definition http_error_msg (r : Response) : string :=
  if (400 <=? status_code r) && (status_code r <? 500) then
    pretty (status_code r) ++ " Client Error: " ++ reason r
      ++ " for url: " ++ resp_url r
  else if (500 <=? status_code r) && (status_code r <? 600) then
    pretty (status_code r) ++ " Server Error: " ++ reason r
      ++ " for url: " ++ resp_url r
  else "".

(** ... and raises [HTTPError] with it when it is not empty. *)
Definition raise_for_status (r : Response) : M unit :=
  match http_error_msg r with
  | EmptyString => ret tt
  | msg => raise (HTTPError msg)
  end.

(** A record of the CSV file, as [csv.reader] yields it: the list of its
    cells, [[]] for a blank line. *)
Abbreviation record := (list string).

(** A row of [csv.DictReader]: column name to cell.  A cell that the record
    is too short to fill is [None]; the surplus cells of a record that is
    too long go under the key [None], which is no column name and which the
    script never reads, so that entry is left out. *)
Definition dict_row (fieldnames : list string) (row : record) : gmap string value :=
  let d := foldl (fun d kv => <[kv.1 := Some kv.2]> d) ∅ (zip fieldnames row) in
  if (length row <? length fieldnames)%nat
  then foldl (fun d key => <[key := None]> d) d (drop (length row) fieldnames)
  else d.

(** The rows after the header; blank records are skipped. *)
Fixpoint dict_rows (fieldnames : list string) (records : list record)
  : list (gmap string value) :=
  match records with
  | [] => []
  | [] :: rest => dict_rows fieldnames rest
  | row :: rest => dict_row fieldnames row :: dict_rows fieldnames rest
  end.

(** [csv.DictReader(csv_data)]: the first record is the header. *)
Definition DictReader (records : list record) : list (gmap string value) :=
  match records with
  | [] => []
  | fieldnames :: rest => dict_rows fieldnames rest
  end.

(** [row[key]] *)
Definition getitem (row : gmap string value) (key : string) : M value :=
  match row !! key with
  | Some v => ret v
  | None => raise (KeyError key)
  end.

(** [sound is False]: a cell is a [str] or [None], never the object [False]. *)
Definition is_False (sound : value) : bool := false.

(** [sound == s] *)
Definition eq_str (sound : value) (s : string) : bool :=
  match sound with
  | Some s' => String.eqb s' s
  | None => false
  end.

Section Script.

(** The environment of a run: the files that exist, with their records;
    what the operator types at the two prompts; the remote service, which
    answers a request, given the requests before it, with a response or
    with the failure of [requests.post]; and [ElementTree.tostring],
    decoded. *)
Variable fs : string -> option (list record).
Variable keyboard : string * string.
Variable remote : list http_request -> http_request -> string + Response.
Variable tostring : xml -> string.

(** [get_credentials()] *)
Definition get_credentials : M (string * string) :=
  emit (Prompted "API Username: ");;
  emit Getpass;;
  ret keyboard.

(** [requests.post(url, auth=auth, data=data)] *)
Definition requests_post (api_resource : string) (au : string * string)
    (xml_data : string) : M Response :=
  fun w =>
    let req := {| url := api_resource; auth := au; data := xml_data |} in
    let w' := {| trace := trace w ++ [Posted req]; heap := heap w |} in
    match remote (posts_of (trace w)) req with
    | inl msg => (Raise (RequestException msg), w')
    | inr resp => (Return resp, w')
    end.

(** Lines 63-74 of [enable_lost_mode]: the command document, built by
    mutation and read back from its root. *)
Definition enable_lost_mode_xml (device_serial message phone_number : value)
    (sound : bool) : M xml :=
  let* command := Element "mobile_device_command" in
  let* gen := SubElement command "general" in
  (let* e := SubElement gen "command" in set_text e (Some "EnableLostMode"));;
  (let* e := SubElement gen "lost_mode_message" in set_text e message);;
  (let* e := SubElement gen "lost_mode_phone" in set_text e phone_number);;
  (let* e := SubElement gen "always_enforce_lost_mode" in set_text e (Some "true"));;
  (if sound
   then let* e := SubElement gen "lost_mode_with_sound" in set_text e (Some "true")
   else ret tt);;
  let* mobile_devices := SubElement command "mobile_devices" in
  let* mobile_device := SubElement mobile_devices "mobile_device" in
  (let* e := SubElement mobile_device "serial_number" in set_text e device_serial);;
  getroot command.

(** Lines 77-88 (and 103-114): post the document, report an HTTP error,
    return the status code. *)
Definition post_command_xml (api_user api_pass : string) (xml_data : string) : M Z :=
  let api_resource := (JAMF_URL ++ "/JSSResource/mobiledevicecommands/command")%string in
  let* post_command := requests_post api_resource (api_user, api_pass) xml_data in
  try_except (raise_for_status post_command) is_HTTPError
    (fun e => print ("Error: " ++ exn_str e);; print xml_data);;
  ret (status_code post_command).

Definition enable_lost_mode (api_user api_pass : string)
    (device_serial message phone_number : value) (sound : bool) : M Z :=
  let* xml_raw := enable_lost_mode_xml device_serial message phone_number sound in
  let xml_data := tostring xml_raw in
  post_command_xml api_user api_pass xml_data.

(** Lines 94-100 of [disable_lost_mode]. *)
Definition disable_lost_mode_xml (device_serial : value) : M xml :=
  let* command := Element "mobile_device_command" in
  let* gen := SubElement command "general" in
  (let* e := SubElement gen "command" in set_text e (Some "DisableLostMode"));;
  let* mobile_devices := SubElement command "mobile_devices" in
  let* mobile_device := SubElement mobile_devices "mobile_device" in
  (let* e := SubElement mobile_device "serial_number" in set_text e device_serial);;
  getroot command.

Definition disable_lost_mode (api_user api_pass : string) (device_serial : value) : M Z :=
  let* xml_raw := disable_lost_mode_xml device_serial in
  let xml_data := tostring xml_raw in
  post_command_xml api_user api_pass xml_data.

(** The diagnostic of lines 200 and 207. *)
Definition failed_to_send (serial_number : value) : string :=
  "Error " ++ str serial_number ++ " failed to send lost mode command".

(** Lines 174-208: the body of the loop over the rows. *)
Definition process_row (mode : string) (creds : string * string)
    (row : gmap string value) : M unit :=
  let* serial_number := getitem row "serial_number" in
  let* message := getitem row "message" in
  let* phone := getitem row "phone_number" in
  let* sound := try_except (getitem row "play_sound") is_KeyError
                  (fun _ => ret None) in
  (if String.eqb mode "enable" then
     try_except
       (if is_False sound || eq_str sound "false" || eq_str sound "FALSE" then
          enable_lost_mode creds.1 creds.2 serial_number message phone false;;
          ret tt
        else
          enable_lost_mode creds.1 creds.2 serial_number message phone true;;
          ret tt)
       is_Exception
       (fun _ => print (failed_to_send serial_number))
   else ret tt);;
  (if String.eqb mode "disable" then
     try_except
       (disable_lost_mode creds.1 creds.2 serial_number;; ret tt)
       is_Exception
       (fun _ => print (failed_to_send serial_number))
   else ret tt).

(** [for row in reader: ...] *)
Fixpoint for_rows (mode : string) (creds : string * string)
    (rows : list (gmap string value)) : M unit :=
  match rows with
  | [] => ret tt
  | row :: rest => process_row mode creds row;; for_rows mode creds rest
  end.

(** Lines 161-165.  The first turn of [for _ in reader] consumes the first
    record and its body drains the reader into [device_list]; the loop then
    finds the reader exhausted.  On an empty file the body never runs. *)
Definition read_device_list (records : list record) : list record :=
  match records with
  | [] => []
  | _ :: rest => rest
  end.

(** [main()], from the parsed arguments [arg.csv] and [arg.mode]. *)
Definition main (csv_file mode : option string) : M unit :=
  match mode with
  | None =>
      print "Requires a mode be specified. Either enable or disable. Specify with --mode or -m.";;
      sys_exit 1
  | Some mode =>
      (if String.eqb mode "disable" || String.eqb mode "enable" then ret tt
       else
         print "Mode needs to be either 'enable' or 'disable'. Specify with --mode or -m.";;
         sys_exit 1);;
      match csv_file with
      | None =>
          print "Requires a CSV path. Specify with --csv or -c.";;
          sys_exit 1
      | Some csv_file =>
          match fs csv_file with
          | None =>
              print "CSV doesn't exist. Check path and try again.";;
              sys_exit 1
          | Some records =>
              let* creds := get_credentials in
              let device_list := read_device_list records in
              if (length device_list =? 0)%nat then
                print "No iPads listed in CSV. No commands to send.";;
                sys_exit 1
              else
                for_rows mode creds (DictReader records)
          end
      end
  end.

End Script.

(** ** Closed forms, for stating what the script does *)

(** The document that [enable_lost_mode] builds. *)
Definition enable_document (device_serial message phone_number : value)
    (sound : bool) : xml :=
  Xml "mobile_device_command" None
    [ Xml "general" None
        ([ Xml "command" (Some "EnableLostMode") [];
           Xml "lost_mode_message" message [];
           Xml "lost_mode_phone" phone_number [];
           Xml "always_enforce_lost_mode" (Some "true") [] ]
         ++ (if sound then [ Xml "lost_mode_with_sound" (Some "true") [] ] else []));
      Xml "mobile_devices" None
        [ Xml "mobile_device" None [ Xml "serial_number" device_serial [] ] ] ].

(** The document that [disable_lost_mode] builds. *)
Definition disable_document (device_serial : value) : xml :=
  Xml "mobile_device_command" None
    [ Xml "general" None [ Xml "command" (Some "DisableLostMode") [] ];
      Xml "mobile_devices" None
        [ Xml "mobile_device" None [ Xml "serial_number" device_serial [] ] ] ].

(** The children of [t] with a given tag. *)
Definition children_named (name : string) (t : xml) : list xml :=
  List.filter (fun c => String.eqb (xml_tag c) name) (xml_children t).

(** The texts of the [name] fields under [general]. *)
Definition general_field (name : string) (doc : xml) : list value :=
  xml_text <$> (children_named "general" doc ≫= children_named name).

(** The device list of a command: its [mobile_device] entries. *)
Definition device_list_of (doc : xml) : list xml :=
  children_named "mobile_devices" doc ≫= children_named "mobile_device".

(** The serial numbers of the targeted devices. *)
Definition device_serials (doc : xml) : list value :=
  xml_text <$> (device_list_of doc ≫= children_named "serial_number").

(** Every tag of a document, in document order. *)
Fixpoint tags (t : xml) : list string :=
  match t with
  | Xml tg _ cs => tg :: concat (map tags cs)
  end.

(** A document without its texts: nesting and field order only. *)
Fixpoint shape (t : xml) : xml :=
  match t with
  | Xml tg _ cs => Xml tg None (map shape cs)
  end.

(** Whether lines 186-198 pass [sound=False]. *)
Definition muted (row : gmap string value) : bool :=
  match row !! "play_sound" with
  | Some sound => is_False sound || eq_str sound "false" || eq_str sound "FALSE"
  | None => false
  end.

(** The cell of a column; [None] also when the row has no such column. *)
Definition cell (row : gmap string value) (key : string) : value :=
  default None (row !! key).

Definition has_key (row : gmap string value) (key : string) : bool :=
  match row !! key with
  | Some _ => true
  | None => false
  end.

(** The row has the three columns that the loop reads unguarded. *)
Definition has_columns (row : gmap string value) : bool :=
  has_key row "serial_number" && has_key row "message" && has_key row "phone_number".

(** The header names the column. *)
Definition has_column (fieldnames : list string) (key : string) : bool :=
  existsb (String.eqb key) fieldnames.

Definition valid_mode (mode : string) : bool :=
  String.eqb mode "disable" || String.eqb mode "enable".

(** The document a row is turned into. *)
Definition row_document (mode : string) (row : gmap string value) : xml :=
  if String.eqb mode "enable"
  then enable_document (cell row "serial_number") (cell row "message")
         (cell row "phone_number") (negb (muted row))
  else disable_document (cell row "serial_number").

Definition api_resource : string :=
  JAMF_URL ++ "/JSSResource/mobiledevicecommands/command".

Section Requests.

Variable remote : list http_request -> http_request -> string + Response.
Variable tostring : xml -> string.

(** The request that carries a document. *)
Definition command_request (creds : string * string) (doc : xml) : http_request :=
  {| url := api_resource; auth := (creds.1, creds.2); data := tostring doc |}.

(** What the client prints after the answer to a request. *)
Definition client_report (xml_data : string) (resp : Response) : list event :=
  match http_error_msg resp with
  | EmptyString => []
  | msg => [Printed ("Error: " ++ msg); Printed xml_data]
  end.

(** The events of one row, after the requests [hist]. *)
Definition row_events (mode : string) (creds : string * string)
    (row : gmap string value) (hist : list http_request) : list event :=
  let req := command_request creds (row_document mode row) in
  Posted req ::
  match remote hist req with
  | inl _ => [Printed (failed_to_send (cell row "serial_number"))]
  | inr resp => client_report (data req) resp
  end.

(** The events of a batch, row after row. *)
Fixpoint batch_events (mode : string) (creds : string * string)
    (rows : list (gmap string value)) (hist : list http_request) : list (list event) :=
  match rows with
  | [] => []
  | row :: rest =>
      let block := row_events mode creds row hist in
      block :: batch_events mode creds rest (hist ++ posts_of block)
  end.

End Requests.

(** ** A concrete environment, to run the script *)

(** [ElementTree.tostring] on ASCII text: [&], [<] and [>] are escaped, an
    element without text and children is written short. *)
Definition escape_char (c : Ascii.ascii) : string :=
  if Ascii.eqb c "&"%char then "&amp;"
  else if Ascii.eqb c "<"%char then "&lt;"
  else if Ascii.eqb c ">"%char then "&gt;"
  else String c "".

Fixpoint escape_cdata (s : string) : string :=
  match s with
  | EmptyString => ""
  | String c s' => escape_char c ++ escape_cdata s'
  end.

Fixpoint serialize_xml (t : xml) : string :=
  match t with
  | Xml tg tx cs =>
      match default "" tx, cs with
      | EmptyString, [] => "<" ++ tg ++ " />"
      | txt, _ =>
          "<" ++ tg ++ ">" ++ escape_cdata txt
            ++ String.concat "" (map serialize_xml cs) ++ "</" ++ tg ++ ">"
      end
  end.

(** A service that accepts every command. *)
Definition accepting (hist : list http_request) (req : http_request)
  : string + Response :=
  inr {| status_code := 201; reason := "Created"; resp_url := url req |}.

(** A service that answers every command with one status. *)
Definition answering (status : Z) (why : string)
    (hist : list http_request) (req : http_request) : string + Response :=
  inr {| status_code := status; reason := why; resp_url := url req |}.

(** A network that fails on the second request only. *)
Definition second_fails (hist : list http_request) (req : http_request)
  : string + Response :=
  if (length hist =? 1)%nat then inl "Connection refused"
  else accepting hist req.

Definition operator : string * string := ("admin", "secret").

(** Three devices to enable; the second has an empty message. *)
Definition enable_csv : list record :=
  [ ["serial_number"; "message"; "phone_number"];
    ["C02ABC123"; "Lost"; "5551234567"];
    ["C02ABC124"; ""; "5551234567"];
    ["C02ABC125"; "Lost"; "5551234567"] ].

(** Two devices to disable, in a file with the one column that the
    script's documentation requires for it. *)
Definition disable_csv : list record :=
  [ ["serial_number"]; ["C02ABC123"]; ["C02ABC124"] ].

(** Devices to enable with a [play_sound] column; the last record is short
    of that cell. *)
Definition sound_csv : list record :=
  [ ["serial_number"; "message"; "phone_number"; "play_sound"];
    ["C02ABC123"; "Lost"; "5551234567"; "false"];
    ["C02ABC124"; "Lost"; "5551234567"; "FALSE"];
    ["C02ABC125"; "Lost"; "5551234567"; "False"];
    ["C02ABC126"; "Lost"; "5551234567"; "no"];
    ["C02ABC127"; "Lost"; "5551234567"; "0"];
    ["C02ABC128"; "Lost"; "5551234567"] ].

(** The third of them: [play_sound] is ["False"]. *)
Definition row_False : gmap string value :=
  dict_row ["serial_number"; "message"; "phone_number"; "play_sound"]
    ["C02ABC125"; "Lost"; "5551234567"; "False"].

(** The second row of [enable_csv], with its empty message. *)
Definition row_empty_message : gmap string value :=
  dict_row ["serial_number"; "message"; "phone_number"]
    ["C02ABC124"; ""; "5551234567"].

Definition header_only_csv : list record :=
  [ ["serial_number"; "message"; "phone_number"] ].

Definition files (path : string) : option (list record) :=
  if String.eqb path "enable.csv" then Some enable_csv
  else if String.eqb path "disable.csv" then Some disable_csv
  else if String.eqb path "sound.csv" then Some sound_csv
  else if String.eqb path "header.csv" then Some header_only_csv
  else if String.eqb path "blank.csv" then Some (header_only_csv ++ [[]])
  else if String.eqb path "empty.csv" then Some []
  else None.

(** ** More closed forms and sample files *)

(** The arguments pass the checks of lines 133-155: a mode that is one of
    the two, a path, and a file at that path. *)
Definition well_configured (fs : string -> option (list record))
    (csv_file mode : option string) : bool :=
  match mode, csv_file with
  | Some mode, Some csv_file =>
      valid_mode mode && match fs csv_file with Some _ => true | None => false end
  | _, _ => false
  end.

(** The first of the columns read by lines 174-176, in the order they are
    read, that the header does not name. *)
Definition first_missing_column (fieldnames : list string) : option string :=
  if negb (has_column fieldnames "serial_number") then Some "serial_number"
  else if negb (has_column fieldnames "message") then Some "message"
  else if negb (has_column fieldnames "phone_number") then Some "phone_number"
  else None.

Definition is_blank (r : record) : bool :=
  match r with
  | [] => true
  | _ :: _ => false
  end.

(** The records that are not blank lines. *)
Definition nonblank (records : list record) : list record :=
  List.filter (fun r => negb (is_blank r)) records.

(** The event is one of the two prompts of [get_credentials]. *)
Definition is_prompt (ev : event) : bool :=
  match ev with
  | Prompted _ | Getpass => true
  | _ => false
  end.

(** [enable_csv] with blank lines between its records. *)
Definition gappy_csv : list record :=
  [ ["serial_number"; "message"; "phone_number"];
    [];
    ["C02ABC123"; "Lost"; "5551234567"];
    []; [];
    ["C02ABC124"; ""; "5551234567"];
    ["C02ABC125"; "Lost"; "5551234567"];
    [] ].

(** An Enable file without the [phone_number] column. *)
Definition no_phone_csv : list record :=
  [ ["serial_number"; "message"]; ["C02ABC123"; "Lost"] ].

Definition more_files (path : string) : option (list record) :=
  if String.eqb path "gappy.csv" then Some gappy_csv
  else if String.eqb path "no_phone.csv" then Some no_phone_csv
  else files path.

(** * Properties *)

(** ** The object store *)

(** The script only ever touches the elements it has just created: what
    the store held before is a frame. *)
Lemma lookup_frame {A} (h l : list A) (i : nat) :
  (h ++ l) !! (length h + i)%nat = l !! i.
Proof. rewrite lookup_app_r by lia. f_equal. lia. Qed.

Lemma Element_frame tg tr h l :
  Element tg {| trace := tr; heap := h ++ l |} =
  (Return (length h + length l)%nat,
   {| trace := tr; heap := h ++ (l ++ [Node tg None []]) |}).
Proof. unfold Element. cbn. rewrite length_app, <- app_assoc. reflexivity. Qed.

Lemma SubElement_frame p tg tr h l :
  SubElement (length h + p) tg {| trace := tr; heap := h ++ l |} =
  (Return (length h + length l)%nat,
   {| trace := tr;
      heap := h ++ (alter (add_kid (length h + length l)) p l
                      ++ [Node tg None []]) |}).
Proof.
  unfold SubElement. cbn.
  rewrite length_app, alter_app_r, <- app_assoc. reflexivity.
Qed.

Lemma set_text_frame i v tr h l :
  set_text (length h + i) v {| trace := tr; heap := h ++ l |} =
  (Return tt, {| trace := tr; heap := h ++ alter (with_text v) i l |}).
Proof. unfold set_text. cbn. rewrite alter_app_r. reflexivity. Qed.

Lemma mapM_cons_Some {A B} (g : A -> option B) a l x xs :
  g a = Some x -> mapM g l = Some xs -> mapM g (a :: l) = Some (x :: xs).
Proof. intros Ha Hl. cbn. rewrite Ha. cbn. rewrite Hl. reflexivity. Qed.

Lemma tree_of_frame f h l i n cs t :
  l !! i = Some n ->
  mapM (tree_of f (h ++ l)) (kids n) = Some cs ->
  t = Xml (tag n) (text n) cs ->
  tree_of (S f) (h ++ l) (length h + i) = Some t.
Proof.
  intros Hn Hcs ->. cbn [tree_of]. rewrite lookup_frame, Hn, Hcs. reflexivity.
Qed.

Lemma getroot_frame i tr h l t :
  tree_of (length l + length h) (h ++ l) (length h + i) = Some t ->
  getroot (length h + i) {| trace := tr; heap := h ++ l |} =
  (Return t, {| trace := tr; heap := h ++ l |}).
Proof.
  intros Ht. unfold getroot. cbn [heap].
  rewrite length_app, Nat.add_comm, Ht. reflexivity.
Qed.

(** One store operation of a builder. *)
Ltac build_step :=
  first [ rewrite Element_frame | rewrite SubElement_frame | rewrite set_text_frame ];
  cbn [length alter list_alter app Nat.add].

(** The walk of [tree_of] over the new elements. *)
Ltac walk :=
  lazymatch goal with
  | |- tree_of (S _) _ _ = Some _ =>
      eapply tree_of_frame;
      [ reflexivity
      | cbn [kids add_kid with_text app]; walk_kids
      | reflexivity ]
  end
with walk_kids :=
  lazymatch goal with
  | |- mapM _ [] = Some _ => reflexivity
  | |- mapM _ (_ :: _) = Some _ => eapply mapM_cons_Some; [ walk | walk_kids ]
  end.

Ltac build :=
  unfold bind, ret; repeat build_step;
  eexists; erewrite getroot_frame;
  [ reflexivity | cbn [length Nat.add]; walk ].

(** Lines 63-74 produce [enable_document], whatever the store holds, and
    do nothing else. *)
Lemma enable_lost_mode_xml_builds device_serial message phone_number sound w :
  exists h',
    enable_lost_mode_xml device_serial message phone_number sound w =
    (Return (enable_document device_serial message phone_number sound),
     {| trace := trace w; heap := heap w ++ h' |}).
Proof.
  destruct w as [tr h]. cbn [trace heap]. unfold enable_lost_mode_xml.
  replace {| trace := tr; heap := h |} with {| trace := tr; heap := h ++ [] |}
    by (rewrite app_nil_r; reflexivity).
  destruct sound; build.
Qed.

Lemma disable_lost_mode_xml_builds device_serial w :
  exists h',
    disable_lost_mode_xml device_serial w =
    (Return (disable_document device_serial),
     {| trace := trace w; heap := heap w ++ h' |}).
Proof.
  destruct w as [tr h]. cbn [trace heap]. unfold disable_lost_mode_xml.
  replace {| trace := tr; heap := h |} with {| trace := tr; heap := h ++ [] |}
    by (rewrite app_nil_r; reflexivity).
  build.
Qed.

(** ** The rows of [csv.DictReader] *)

Lemma has_column_elem_of fieldnames key :
  has_column fieldnames key = true <-> key ∈ fieldnames.
Proof.
  unfold has_column. rewrite existsb_exists. split.
  - intros (k & Hin & Heq). apply String.eqb_eq in Heq. subst k.
    apply list_elem_of_In. exact Hin.
  - intros Hin. exists key. split; [apply list_elem_of_In, Hin | apply String.eqb_refl].
Qed.

Lemma has_key_is_Some row key : has_key row key = true <-> is_Some (row !! key).
Proof.
  unfold has_key. destruct (row !! key); split; intros H; done.
Qed.

Lemma fst_zip_take {A B} (l : list A) (k : list B) :
  (zip l k).*1 = take (length k) l.
Proof.
  revert k. induction l as [|a l IH]; intros [|b k]; cbn; try reflexivity.
  f_equal. apply IH.
Qed.

Lemma foldl_insert_cells_is_Some (l : list (string * string)) :
  forall (d : gmap string value) key,
    is_Some (foldl (fun d kv => <[kv.1 := Some kv.2]> d) d l !! key) <->
    is_Some (d !! key) \/ key ∈ l.*1.
Proof.
  induction l as [|[k v] l IH]; intros d key; cbn [foldl fmap list_fmap].
  - rewrite elem_of_nil. tauto.
  - rewrite IH, elem_of_cons. cbn [fst snd].
    rewrite lookup_insert_is_Some'. intuition (subst; auto).
Qed.

Lemma foldl_insert_None_is_Some (l : list string) :
  forall (d : gmap string value) key,
    is_Some (foldl (fun d k => <[k := None]> d) d l !! key) <->
    is_Some (d !! key) \/ key ∈ l.
Proof.
  induction l as [|k l IH]; intros d key; cbn [foldl].
  - rewrite elem_of_nil. tauto.
  - rewrite IH, elem_of_cons, lookup_insert_is_Some'. intuition (subst; auto).
Qed.

(** A row has exactly the columns of the header. *)
Lemma dict_row_has_key fieldnames row key :
  has_key (dict_row fieldnames row) key = has_column fieldnames key.
Proof.
  apply eq_true_iff_eq. rewrite has_column_elem_of, has_key_is_Some.
  unfold dict_row.
  destruct (Nat.ltb_spec (length row) (length fieldnames)) as [Hlt|Hge].
  - rewrite foldl_insert_None_is_Some, foldl_insert_cells_is_Some.
    rewrite lookup_empty, fst_zip_take.
    rewrite <- (take_drop (length row) fieldnames) at 3.
    rewrite elem_of_app, is_Some_alt. tauto.
  - rewrite foldl_insert_cells_is_Some, lookup_empty, fst_zip_take.
    rewrite take_ge by lia. rewrite is_Some_alt. tauto.
Qed.

Lemma dict_rows_has_columns fieldnames records :
  has_column fieldnames "serial_number" = true ->
  has_column fieldnames "message" = true ->
  has_column fieldnames "phone_number" = true ->
  forallb has_columns (dict_rows fieldnames records) = true.
Proof.
  intros Hs Hm Hp. induction records as [|[|c row] rest IH]; cbn; auto.
  rewrite IH. unfold has_columns. rewrite !dict_row_has_key, Hs, Hm, Hp. reflexivity.
Qed.

(** ** The functions of the script, each in one equation *)

Section Dispatch.

Variable fs : string -> option (list record).
Variable keyboard : string * string.
Variable remote : list http_request -> http_request -> string + Response.
Variable tostring : xml -> string.

(** Lines 77-88 in one equation. *)
Lemma post_command_xml_spec api_user api_pass xml_data w :
  post_command_xml remote api_user api_pass xml_data w =
  let req := {| url := api_resource; auth := (api_user, api_pass); data := xml_data |} in
  match remote (posts_of (trace w)) req with
  | inl msg =>
      (Raise (RequestException msg),
       {| trace := trace w ++ [Posted req]; heap := heap w |})
  | inr resp =>
      (Return (status_code resp),
       {| trace := trace w ++ Posted req :: client_report xml_data resp;
          heap := heap w |})
  end.
Proof.
  unfold post_command_xml, requests_post, bind, try_except, raise_for_status,
    client_report, api_resource.
  cbn zeta.
  destruct (remote _ _) as [msg|resp]; [reflexivity|].
  destruct (http_error_msg resp) eqn:E; cbn.
  - reflexivity.
  - rewrite <- !app_assoc. reflexivity.
Qed.


Lemma enable_lost_mode_spec api_user api_pass device_serial message phone_number sound w :
  exists h',
    enable_lost_mode remote tostring api_user api_pass device_serial message
      phone_number sound w =
    let doc := enable_document device_serial message phone_number sound in
    let req := command_request tostring (api_user, api_pass) doc in
    match remote (posts_of (trace w)) req with
    | inl msg =>
        (Raise (RequestException msg),
         {| trace := trace w ++ [Posted req]; heap := heap w ++ h' |})
    | inr resp =>
        (Return (status_code resp),
         {| trace := trace w ++ Posted req :: client_report (tostring doc) resp;
            heap := heap w ++ h' |})
    end.
Proof.
  destruct (enable_lost_mode_xml_builds device_serial message phone_number sound w)
    as [h' E].
  exists h'. unfold enable_lost_mode, bind. rewrite E.
  rewrite post_command_xml_spec. reflexivity.
Qed.

Lemma disable_lost_mode_spec api_user api_pass device_serial w :
  exists h',
    disable_lost_mode remote tostring api_user api_pass device_serial w =
    let doc := disable_document device_serial in
    let req := command_request tostring (api_user, api_pass) doc in
    match remote (posts_of (trace w)) req with
    | inl msg =>
        (Raise (RequestException msg),
         {| trace := trace w ++ [Posted req]; heap := heap w ++ h' |})
    | inr resp =>
        (Return (status_code resp),
         {| trace := trace w ++ Posted req :: client_report (tostring doc) resp;
            heap := heap w ++ h' |})
    end.
Proof.
  destruct (disable_lost_mode_xml_builds device_serial w) as [h' E].
  exists h'. unfold disable_lost_mode, bind. rewrite E.
  rewrite post_command_xml_spec. reflexivity.
Qed.

Lemma valid_mode_cases mode :
  valid_mode mode = true -> mode = "disable" \/ mode = "enable".
Proof.
  unfold valid_mode. intros H. apply orb_prop in H.
  destruct H as [H|H]; apply String.eqb_eq in H; auto.
Qed.

Lemma has_columns_cells row :
  has_columns row = true ->
  row !! "serial_number" = Some (cell row "serial_number") /\
  row !! "message" = Some (cell row "message") /\
  row !! "phone_number" = Some (cell row "phone_number").
Proof.
  unfold has_columns, has_key, cell. intros H.
  destruct (row !! "serial_number"), (row !! "message"), (row !! "phone_number");
    try discriminate H; auto.
Qed.

(** Lines 174-208 in one equation, for a row that has the three columns. *)
Lemma process_row_spec mode creds row w :
  valid_mode mode = true ->
  has_columns row = true ->
  exists h',
    process_row remote tostring mode creds row w =
    (Return tt,
     {| trace := trace w ++ row_events remote tostring mode creds row (posts_of (trace w));
        heap := heap w ++ h' |}).
Proof.
  intros Hmode Hcols.
  destruct (has_columns_cells row Hcols) as (Hs & Hm & Hp).
  unfold process_row, getitem. rewrite Hs, Hm, Hp.
  unfold row_events, row_document, muted.
  destruct (valid_mode_cases mode Hmode) as [-> | ->]; cbn [String.eqb Ascii.eqb Bool.eqb].
  - destruct (disable_lost_mode_spec creds.1 creds.2 (cell row "serial_number") w)
      as [h' E].
    exists h'. unfold bind, ret, try_except.
    destruct (row !! "play_sound"); cbn [raise is_KeyError]; rewrite E; clear E;
      cbn zeta; unfold command_request; cbn [fst snd data];
      destruct (remote _ _); unfold print, emit; cbn [is_Exception trace heap];
      rewrite <- ?app_assoc; reflexivity.
  - destruct (enable_lost_mode_spec creds.1 creds.2 (cell row "serial_number")
                (cell row "message") (cell row "phone_number") (negb (muted row)) w)
      as [h' E].
    exists h'. unfold bind, ret, try_except. revert E. unfold muted.
    destruct (row !! "play_sound") as [sound|]; cbn [raise is_KeyError];
      [ destruct (is_False sound || eq_str sound "false" || eq_str sound "FALSE") | ];
      cbn [negb eq_str is_False orb]; intros E; rewrite E; clear E;
      cbn zeta; unfold command_request; cbn [fst snd data];
      destruct (remote _ _); unfold print, emit; cbn [is_Exception trace heap];
      rewrite <- ?app_assoc; reflexivity.
Qed.

Lemma posts_of_app tr1 tr2 : posts_of (tr1 ++ tr2) = posts_of tr1 ++ posts_of tr2.
Proof. unfold posts_of. apply omap_app. Qed.

(** The loop in one equation, for rows that have the three columns. *)
Lemma for_rows_spec mode creds rows :
  valid_mode mode = true ->
  forallb has_columns rows = true ->
  forall w, exists h',
    for_rows remote tostring mode creds rows w =
    (Return tt,
     {| trace := trace w ++
                 concat (batch_events remote tostring mode creds rows (posts_of (trace w)));
        heap := heap w ++ h' |}).
Proof.
  intros Hmode. induction rows as [|row rest IH]; intros Hrows w.
  - exists []. cbn. rewrite !app_nil_r. destruct w; reflexivity.
  - cbn in Hrows. apply andb_prop in Hrows as [Hrow Hrest].
    destruct (process_row_spec mode creds row w Hmode Hrow) as [h1 E1].
    cbn [for_rows]. unfold bind. rewrite E1.
    destruct (IH Hrest
      {| trace := trace w ++ row_events remote tostring mode creds row (posts_of (trace w));
         heap := heap w ++ h1 |}) as [h2 E2].
    rewrite E2. exists (h1 ++ h2). cbn [trace heap batch_events concat].
    rewrite posts_of_app, <- !app_assoc. reflexivity.
Qed.


Lemma process_row_KeyError mode creds row w :
  has_columns row = false ->
  exists key,
    process_row remote tostring mode creds row w = (Raise (KeyError key), w) /\
    has_key row key = false.
Proof.
  unfold has_columns, has_key, process_row, getitem, bind, ret, raise.
  destruct (row !! "serial_number") eqn:Hs; [|intros _; exists "serial_number"; by rewrite Hs].
  destruct (row !! "message") eqn:Hm; [|intros _; exists "message"; by rewrite Hm].
  destruct (row !! "phone_number") eqn:Hp; [|intros _; exists "phone_number"; by rewrite Hp].
  discriminate.
Qed.

(** ** [main] *)

(** With a valid mode and a file that has a record after its first, [main]
    prompts for the credentials and enters the loop. *)
Lemma main_dispatches csv_file mode fieldnames first rest w :
  valid_mode mode = true ->
  fs csv_file = Some (fieldnames :: first :: rest) ->
  main fs keyboard remote tostring (Some csv_file) (Some mode) w =
  for_rows remote tostring mode keyboard (dict_rows fieldnames (first :: rest))
    {| trace := trace w ++ [Prompted "API Username: "; Getpass]; heap := heap w |}.
Proof.
  intros Hmode Hfs. unfold main. fold (valid_mode mode).
  rewrite Hmode, Hfs. unfold get_credentials, emit, bind, ret.
  cbn [trace heap read_device_list length Nat.eqb DictReader].
  rewrite <- ?app_assoc. reflexivity.
Qed.

(** With a valid mode and a file without a record after its first, [main]
    prompts for the credentials, reports that there is nothing to do and
    exits. *)
Lemma main_no_items csv_file mode records w :
  valid_mode mode = true ->
  fs csv_file = Some records ->
  read_device_list records = [] ->
  main fs keyboard remote tostring (Some csv_file) (Some mode) w =
  (Raise (SystemExit 1),
   {| trace := trace w ++ [Prompted "API Username: "; Getpass;
                           Printed "No iPads listed in CSV. No commands to send."];
      heap := heap w |}).
Proof.
  intros Hmode Hfs Hnone. unfold main. fold (valid_mode mode).
  rewrite Hmode, Hfs, Hnone.
  unfold get_credentials, print, emit, sys_exit, raise, bind, ret.
  cbn [trace heap length Nat.eqb].
  rewrite <- ?app_assoc. reflexivity.
Qed.
End Dispatch.

(** ** The command builder *)

(** C5. For an Enable request the built payload has command
    [EnableLostMode], [lost_mode_message] and [lost_mode_phone] equal to the
    request's message and phone number, [always_enforce_lost_mode] equal to
    ["true"] unconditionally, [lost_mode_with_sound] equal to ["true"]
    present exactly when [sound] is true and omitted when it is false, and
    the serial number under a device list of exactly one entry.  The
    builder returns this document from any store and emits nothing. *)
Theorem enable_payload_fields device_serial message phone_number sound w :
  exists doc w',
    enable_lost_mode_xml device_serial message phone_number sound w = (Return doc, w') /\
    trace w' = trace w /\
    doc = enable_document device_serial message phone_number sound /\
    xml_tag doc = "mobile_device_command" /\
    general_field "command" doc = [Some "EnableLostMode"] /\
    general_field "lost_mode_message" doc = [message] /\
    general_field "lost_mode_phone" doc = [phone_number] /\
    general_field "always_enforce_lost_mode" doc = [Some "true"] /\
    general_field "lost_mode_with_sound" doc = (if sound then [Some "true"] else []) /\
    device_list_of doc = [Xml "mobile_device" None [Xml "serial_number" device_serial []]] /\
    device_serials doc = [device_serial].
Proof.
  destruct (enable_lost_mode_xml_builds device_serial message phone_number sound w)
    as [h' E].
  eexists _, _. split; [exact E|].
  destruct sound; repeat split.
Qed.

(** C6. For a Disable request the built payload has command
    [DisableLostMode], no message, phone or sound field (its tags are the
    six listed, and no other), and the serial number in the same
    single-device target as the Enable payload. *)
Theorem disable_payload_fields device_serial w :
  exists doc w',
    disable_lost_mode_xml device_serial w = (Return doc, w') /\
    trace w' = trace w /\
    doc = disable_document device_serial /\
    general_field "command" doc = [Some "DisableLostMode"] /\
    tags doc = ["mobile_device_command"; "general"; "command";
                "mobile_devices"; "mobile_device"; "serial_number"] /\
    general_field "lost_mode_message" doc = [] /\
    general_field "lost_mode_phone" doc = [] /\
    general_field "lost_mode_with_sound" doc = [] /\
    device_serials doc = [device_serial] /\
    forall message phone_number sound,
      children_named "mobile_devices" doc =
      children_named "mobile_devices"
        (enable_document device_serial message phone_number sound).
Proof.
  destruct (disable_lost_mode_xml_builds device_serial w) as [h' E].
  eexists _, _. split; [exact E|].
  repeat split.
Qed.

(** C9. The command builder is deterministic: for fixed arguments it
    returns one and the same document from every state of the world, and
    the nesting and field order of that document depend on the operation
    (and, for Enable, on [sound]) alone, not on the texts. *)
Theorem command_builder_deterministic device_serial message phone_number sound :
  exists doc_enable doc_disable,
    (forall w,
       (enable_lost_mode_xml device_serial message phone_number sound w).1
       = Return doc_enable) /\
    (forall w, (disable_lost_mode_xml device_serial w).1 = Return doc_disable) /\
    (forall device_serial' message' phone_number' w,
       exists doc',
         (enable_lost_mode_xml device_serial' message' phone_number' sound w).1
         = Return doc' /\
         shape doc' = shape doc_enable) /\
    (forall device_serial' w,
       exists doc',
         (disable_lost_mode_xml device_serial' w).1 = Return doc' /\
         shape doc' = shape doc_disable).
Proof.
  exists (enable_document device_serial message phone_number sound),
         (disable_document device_serial).
  repeat split.
  - intros w.
    destruct (enable_lost_mode_xml_builds device_serial message phone_number sound w)
      as [h' ->]. reflexivity.
  - intros w. destruct (disable_lost_mode_xml_builds device_serial w) as [h' ->].
    reflexivity.
  - intros ds' m' p' w.
    destruct (enable_lost_mode_xml_builds ds' m' p' sound w) as [h' ->].
    eexists. split; [reflexivity|]. destruct sound; reflexivity.
  - intros ds' w. destruct (disable_lost_mode_xml_builds ds' w) as [h' ->].
    eexists. split; reflexivity.
Qed.

(** ** One row *)

Lemma posts_of_client_report xml_data resp :
  posts_of (client_report xml_data resp) = [].
Proof. unfold client_report. destruct (http_error_msg resp); reflexivity. Qed.

Lemma posts_of_row_events remote tostring mode creds row hist :
  posts_of (row_events remote tostring mode creds row hist) =
  [command_request tostring creds (row_document mode row)].
Proof.
  unfold row_events. cbn zeta. destruct (remote _ _); cbn.
  - reflexivity.
  - fold (posts_of (client_report (tostring (row_document mode row)) r)).
    rewrite posts_of_client_report. reflexivity.
Qed.

Lemma muted_iff row :
  muted row = true <->
  row !! "play_sound" = Some (Some "false") \/ row !! "play_sound" = Some (Some "FALSE").
Proof.
  unfold muted, is_False, eq_str.
  destruct (row !! "play_sound") as [[s|]|]; cbn [orb].
  - rewrite orb_true_iff, !String.eqb_eq. split.
    + intros [-> | ->]; auto.
    + intros [H|H]; inversion H; auto.
  - split; [discriminate | intros [H|H]; discriminate H].
  - split; [discriminate | intros [H|H]; discriminate H].
Qed.

(** C4. For every Enable row, the posted payload contains the
    sound-enabled marker exactly when [play_sound] does not disable it: the
    marker is omitted exactly when the cell is the string ["false"] or the
    string ["FALSE"], and present for an absent column or cell and for any
    other value. *)
Theorem play_sound_marker remote tostring creds row w :
  has_columns row = true ->
  exists doc w',
    process_row remote tostring "enable" creds row w = (Return tt, w') /\
    posts_of (trace w') = posts_of (trace w) ++ [command_request tostring creds doc] /\
    (exists sound,
       doc = enable_document (cell row "serial_number") (cell row "message")
               (cell row "phone_number") sound) /\
    (general_field "lost_mode_with_sound" doc = [] <->
     (row !! "play_sound" = Some (Some "false") \/
      row !! "play_sound" = Some (Some "FALSE"))) /\
    (general_field "lost_mode_with_sound" doc = [Some "true"] <->
     ~ (row !! "play_sound" = Some (Some "false") \/
        row !! "play_sound" = Some (Some "FALSE"))).
Proof.
  intros Hcols.
  destruct (process_row_spec remote tostring "enable" creds row w eq_refl Hcols)
    as [h' E].
  exists (row_document "enable" row). eexists. split; [exact E|].
  cbn [trace]. rewrite posts_of_app, posts_of_row_events.
  split; [reflexivity|]. split; [eexists; reflexivity|].
  rewrite <- muted_iff. unfold row_document. cbn [String.eqb Ascii.eqb Bool.eqb].
  destruct (muted row); cbn; split; split; congruence.
Qed.

(** The row of [sound_csv] whose [play_sound] is ["False"]: the marker is
    there. *)
Lemma play_sound_marker_witness :
  has_columns row_False = true /\
  exists doc w',
    process_row accepting serialize_xml "enable" operator row_False initial
    = (Return tt, w') /\
    posts_of (trace w') = [command_request serialize_xml operator doc] /\
    general_field "lost_mode_with_sound" doc = [Some "true"].
Proof.
  split; [reflexivity|].
  destruct (play_sound_marker accepting serialize_xml operator row_False initial eq_refl)
    as (doc & w' & H1 & H2 & _ & _ & H5).
  exists doc, w'. repeat split; [exact H1 | exact H2 |].
  apply H5. intros [H|H]; vm_compute in H; discriminate H.
Defined.

(** The run of the script on [sound_csv]: which commands carry the marker. *)
Example sound_csv_markers :
  general_field "lost_mode_with_sound" <$>
    (row_document "enable" <$> DictReader sound_csv) =
  [ []; []; [Some "true"]; [Some "true"]; [Some "true"]; [Some "true"] ].
Proof. vm_compute. reflexivity. Qed.

(** C2, as stated, fails: the script does not validate.  On [enable_csv],
    whose second row has an empty message, the run posts three commands, the
    second with an empty [lost_mode_message], and reports no failure. *)
Lemma empty_message_row_is_sent :
  let run := main files operator accepting serialize_xml
               (Some "enable.csv") (Some "enable") initial in
  run.1 = Return tt /\
  posts_of (trace run.2) =
    [ command_request serialize_xml operator
        (enable_document (Some "C02ABC123") (Some "Lost") (Some "5551234567") true);
      command_request serialize_xml operator
        (enable_document (Some "C02ABC124") (Some "") (Some "5551234567") true);
      command_request serialize_xml operator
        (enable_document (Some "C02ABC125") (Some "Lost") (Some "5551234567") true) ] /\
  prints_of (trace run.2) = [] /\
  ~ (length (posts_of (trace run.2)) = 2%nat /\ length (prints_of (trace run.2)) = 1%nat).
Proof.
  vm_compute. repeat split. intros [H _]. discriminate H.
Qed.

(** C2, amended.  An Enable row that has the three columns is not
    validated: whatever its cells hold, the empty string included, one
    command is built from them as they are and posted; the row ends
    normally and the loop goes on with the rows after it. *)
Theorem enable_row_is_sent_unvalidated remote tostring creds row rest w :
  has_columns row = true ->
  exists sound w',
    process_row remote tostring "enable" creds row w = (Return tt, w') /\
    posts_of (trace w') =
      posts_of (trace w) ++
      [command_request tostring creds
         (enable_document (cell row "serial_number") (cell row "message")
            (cell row "phone_number") sound)] /\
    for_rows remote tostring "enable" creds (row :: rest) w =
    for_rows remote tostring "enable" creds rest w'.
Proof.
  intros Hcols.
  destruct (process_row_spec remote tostring "enable" creds row w eq_refl Hcols)
    as [h' E].
  exists (negb (muted row)). eexists. split; [exact E|]. split.
  - cbn [trace]. rewrite posts_of_app, posts_of_row_events. reflexivity.
  - cbn [for_rows]. unfold bind. rewrite E. reflexivity.
Qed.

(** The row of [enable_csv] with the empty message. *)
Lemma enable_row_is_sent_unvalidated_witness :
  has_columns row_empty_message = true /\
  cell row_empty_message "message" = Some "" /\
  exists sound w',
    process_row accepting serialize_xml "enable" operator row_empty_message initial
    = (Return tt, w') /\
    posts_of (trace w') =
      [command_request serialize_xml operator
         (enable_document (Some "C02ABC124") (Some "") (Some "5551234567") sound)].
Proof.
  split; [reflexivity|]. split; [reflexivity|].
  destruct (enable_row_is_sent_unvalidated accepting serialize_xml operator
              row_empty_message [] initial eq_refl)
    as (sound & w' & H1 & H2 & _).
  exists sound, w'. split; [exact H1 | exact H2].
Defined.

(** ** The transport client *)

Lemma append_not_empty (a b : string) : b <> "" -> (a ++ b)%string <> "".
Proof. intros Hb. destruct a; cbn; [exact Hb | discriminate]. Qed.

(** [raise_for_status] raises exactly for a status from 400 to 599. *)
Lemma http_error_msg_empty resp :
  http_error_msg resp = "" <->
  (400 <=? status_code resp) && (status_code resp <? 600) = false.
Proof.
  unfold http_error_msg.
  destruct (400 <=? status_code resp) eqn:H4, (status_code resp <? 500) eqn:H5,
    (500 <=? status_code resp) eqn:H6, (status_code resp <? 600) eqn:H7;
    cbn [andb]; split; intros H; try reflexivity; try discriminate H;
    try (exfalso; revert H; apply append_not_empty; discriminate);
    exfalso; lia.
Qed.

Lemma client_report_cases xml_data resp :
  client_report xml_data resp =
  if (400 <=? status_code resp) && (status_code resp <? 600)
  then [Printed ("Error: " ++ http_error_msg resp); Printed xml_data]
  else [].
Proof.
  unfold client_report.
  destruct ((400 <=? status_code resp) && (status_code resp <? 600)) eqn:E.
  - destruct (http_error_msg resp) eqn:Hm; [|reflexivity].
    apply http_error_msg_empty in Hm. congruence.
  - apply http_error_msg_empty in E. rewrite E. reflexivity.
Qed.

(** C8, as stated, fails: a status that is neither 2xx nor from 400 to 599
    is not treated as a failure.  On 304 the client prints nothing and
    returns 304. *)
Lemma status_304_is_not_reported :
  let call := enable_lost_mode (answering 304 "Not Modified") serialize_xml
                "admin" "secret" (Some "C02ABC123") (Some "Lost")
                (Some "5551234567") true initial in
  call.1 = Return 304 /\
  prints_of (trace call.2) = [] /\
  length (posts_of (trace call.2)) = 1%nat.
Proof. vm_compute. repeat split. Qed.

(** C8, amended.  [enable_lost_mode] and [disable_lost_mode] post their
    document once.  When the service answers, the client returns the
    status code of the response, whatever it is, and never raises; for a
    status from 400 to 599 it first prints the error and then the payload
    that it sent, for every other status (2xx, but also 1xx and 3xx) it
    prints nothing.  Only a failure of the post itself leaves the client as
    an exception. *)
Theorem client_status_handling remote tostring api_user api_pass
    device_serial message phone_number sound w :
  let outcome_of doc h' :=
    let req := command_request tostring (api_user, api_pass) doc in
    match remote (posts_of (trace w)) req with
    | inl msg =>
        (Raise (RequestException msg),
         {| trace := trace w ++ [Posted req]; heap := heap w ++ h' |})
    | inr resp =>
        (Return (status_code resp),
         {| trace :=
              trace w ++ Posted req ::
              (if (400 <=? status_code resp) && (status_code resp <? 600)
               then [Printed ("Error: " ++ http_error_msg resp); Printed (tostring doc)]
               else []);
            heap := heap w ++ h' |})
    end in
  (exists h',
     enable_lost_mode remote tostring api_user api_pass device_serial message
       phone_number sound w =
     outcome_of (enable_document device_serial message phone_number sound) h') /\
  (exists h',
     disable_lost_mode remote tostring api_user api_pass device_serial w =
     outcome_of (disable_document device_serial) h').
Proof.
  cbn zeta. split.
  - destruct (enable_lost_mode_spec remote tostring api_user api_pass device_serial
                message phone_number sound w) as [h' E].
    exists h'. rewrite E. cbn zeta.
    destruct (remote _ _); [reflexivity|]. rewrite client_report_cases. reflexivity.
  - destruct (disable_lost_mode_spec remote tostring api_user api_pass device_serial w)
      as [h' E].
    exists h'. rewrite E. cbn zeta.
    destruct (remote _ _); [reflexivity|]. rewrite client_report_cases. reflexivity.
Qed.

(** A 404 on the same call: the error and the payload are printed, and 404
    is returned. *)
Example status_404_is_reported :
  let call := disable_lost_mode (answering 404 "Not Found") serialize_xml
                "admin" "secret" (Some "C02ABC123") initial in
  call.1 = Return 404 /\
  prints_of (trace call.2) =
    [ "Error: 404 Client Error: Not Found for url: https://myorg.jamfcloud.com/JSSResource/mobiledevicecommands/command";
      "<mobile_device_command><general><command>DisableLostMode</command></general><mobile_devices><mobile_device><serial_number>C02ABC123</serial_number></mobile_device></mobile_devices></mobile_device_command>" ].
Proof. vm_compute. repeat split. Qed.

(** ** The batch *)



(** The run on [enable_csv] when the network fails on the second post: all
    three commands are posted, and the one line printed names the second
    device. *)
Example second_post_fails :
  let run := main files operator second_fails serialize_xml
               (Some "enable.csv") (Some "enable") initial in
  run.1 = Return tt /\
  length (posts_of (trace run.2)) = 3%nat /\
  prints_of (trace run.2) = ["Error C02ABC124 failed to send lost mode command"].
Proof. vm_compute. repeat split. Qed.

Lemma batch_events_posts remote tostring mode creds rows :
  forall hist,
    posts_of (concat (batch_events remote tostring mode creds rows hist)) =
    (fun row => command_request tostring creds (row_document mode row)) <$> rows.
Proof.
  induction rows as [|row rest IH]; intros hist; [reflexivity|].
  cbn [batch_events concat fmap list_fmap].
  rewrite posts_of_app, posts_of_row_events, IH. reflexivity.
Qed.

Lemma row_events_shape remote tostring mode creds row hist :
  exists report,
    row_events remote tostring mode creds row hist =
    Posted (command_request tostring creds (row_document mode row)) :: (Printed <$> report).
Proof.
  unfold row_events. cbn zeta. destruct (remote _ _) as [msg|resp].
  - eexists [_]. reflexivity.
  - unfold client_report. destruct (http_error_msg resp).
    + exists []. reflexivity.
    + eexists [_; _]. reflexivity.
Qed.

Lemma batch_events_shape remote tostring mode creds rows :
  forall hist,
    Forall2
      (fun row block =>
         exists report,
           block = Posted (command_request tostring creds (row_document mode row))
                   :: (Printed <$> report))
      rows (batch_events remote tostring mode creds rows hist).
Proof.
  induction rows as [|row rest IH]; intros hist; constructor.
  - apply row_events_shape.
  - apply IH.
Qed.

(** C10. The rows are processed one after the other in the order of the
    file: the trace of a run is the prompts followed by one block of
    events per row, in row order, each block being the post of that row's
    command followed by what is printed about it, and each block computed
    from the requests of the rows before it alone; the posted requests are
    those of the rows, in row order. *)
Theorem rows_are_processed_in_order fs keyboard remote tostring csv_file mode
    fieldnames first rest w :
  valid_mode mode = true ->
  fs csv_file = Some (fieldnames :: first :: rest) ->
  has_column fieldnames "serial_number" = true ->
  has_column fieldnames "message" = true ->
  has_column fieldnames "phone_number" = true ->
  let rows := DictReader (fieldnames :: first :: rest) in
  let request row := command_request tostring keyboard (row_document mode row) in
  exists w' blocks,
    main fs keyboard remote tostring (Some csv_file) (Some mode) w = (Return tt, w') /\
    trace w' = trace w ++ [Prompted "API Username: "; Getpass] ++ concat blocks /\
    blocks = batch_events remote tostring mode keyboard rows (posts_of (trace w)) /\
    Forall2 (fun row block => exists report, block = Posted (request row) :: (Printed <$> report))
      rows blocks /\
    posts_of (trace w') = posts_of (trace w) ++ (request <$> rows).
Proof.
  intros Hmode Hfs Hs Hm Hp rows request.
  rewrite (main_dispatches fs keyboard remote tostring csv_file mode fieldnames
             first rest w Hmode Hfs).
  pose proof (dict_rows_has_columns fieldnames (first :: rest) Hs Hm Hp) as Hrows.
  destruct (for_rows_spec remote tostring mode keyboard
              (dict_rows fieldnames (first :: rest)) Hmode Hrows
              {| trace := trace w ++ [Prompted "API Username: "; Getpass];
                 heap := heap w |}) as [h' E].
  eexists _, _. split; [exact E|]. cbn [trace].
  rewrite !posts_of_app. cbn [posts_of omap list_omap]. rewrite app_nil_r.
  split; [rewrite <- app_assoc; reflexivity|].
  split; [reflexivity|]. split.
  - apply batch_events_shape.
  - rewrite batch_events_posts. reflexivity.
Qed.

(** The run on [enable_csv]. *)
Lemma rows_are_processed_in_order_witness :
  valid_mode "enable" = true /\
  files "enable.csv" = Some enable_csv /\
  has_column ["serial_number"; "message"; "phone_number"] "serial_number" = true /\
  has_column ["serial_number"; "message"; "phone_number"] "message" = true /\
  has_column ["serial_number"; "message"; "phone_number"] "phone_number" = true /\
  exists w',
    main files operator second_fails serialize_xml (Some "enable.csv") (Some "enable")
      initial = (Return tt, w') /\
    posts_of (trace w') =
      (fun row => command_request serialize_xml operator (row_document "enable" row))
        <$> DictReader enable_csv.
Proof.
  repeat (split; [reflexivity|]).
  destruct (rows_are_processed_in_order files operator second_fails serialize_xml
              "enable.csv" "enable" _ _ _ initial eq_refl eq_refl eq_refl eq_refl eq_refl)
    as (w' & blocks & H1 & _ & _ & _ & H5).
  exists w'. split; [exact H1 | exact H5].
Defined.

Lemma dict_rows_head fieldnames records row more :
  dict_rows fieldnames records = row :: more ->
  exists r, row = dict_row fieldnames r.
Proof.
  induction records as [|[|c r] rest IH]; cbn [dict_rows]; intros H.
  - discriminate H.
  - apply IH, H.
  - inversion H. eexists. reflexivity.
Qed.

(** C3. In Disable mode the loop still reads the [message] and
    [phone_number] cells of each row, outside any [try].  On a file whose
    header lacks one of these columns, the first row raises a [KeyError]
    that nothing catches: the run ends with it right after the prompts, and
    no command is posted, for that row or any later one. *)
Theorem disable_aborts_without_message_columns fs keyboard remote tostring
    csv_file fieldnames first rest w :
  fs csv_file = Some (fieldnames :: first :: rest) ->
  has_column fieldnames "message" && has_column fieldnames "phone_number" = false ->
  DictReader (fieldnames :: first :: rest) <> [] ->
  exists key w',
    main fs keyboard remote tostring (Some csv_file) (Some "disable") w
    = (Raise (KeyError key), w') /\
    has_column fieldnames key = false /\
    trace w' = trace w ++ [Prompted "API Username: "; Getpass] /\
    posts_of (trace w') = posts_of (trace w).
Proof.
  intros Hfs Hcols Hrows.
  rewrite (main_dispatches fs keyboard remote tostring csv_file "disable" fieldnames
             first rest w eq_refl Hfs).
  cbn [DictReader] in Hrows.
  destruct (dict_rows fieldnames (first :: rest)) as [|row more] eqn:Hd; [done|].
  destruct (dict_rows_head _ _ _ _ Hd) as [r ->].
  assert (Hmissing : has_columns (dict_row fieldnames r) = false).
  { unfold has_columns. rewrite !dict_row_has_key.
    apply andb_false_iff in Hcols as [H|H]; rewrite H;
      [apply andb_false_iff; left; apply andb_false_r | apply andb_false_r]. }
  destruct (process_row_KeyError remote tostring "disable" keyboard
              (dict_row fieldnames r)
              {| trace := trace w ++ [Prompted "API Username: "; Getpass];
                 heap := heap w |} Hmissing) as (key & E & Hkey).
  exists key. eexists. cbn [for_rows]. unfold bind. rewrite E.
  split; [reflexivity|]. rewrite dict_row_has_key in Hkey.
  split; [exact Hkey|]. split; [reflexivity|].
  cbn [trace]. rewrite posts_of_app. cbn. apply app_nil_r.
Qed.

(** The run on [disable_csv], whose only column is [serial_number]. *)
Lemma disable_aborts_without_message_columns_witness :
  files "disable.csv" = Some (["serial_number"] :: ["C02ABC123"] :: [["C02ABC124"]]) /\
  has_column ["serial_number"] "message" && has_column ["serial_number"] "phone_number"
  = false /\
  DictReader disable_csv <> [] /\
  exists key w',
    main files operator accepting serialize_xml (Some "disable.csv") (Some "disable")
      initial = (Raise (KeyError key), w') /\
    posts_of (trace w') = [].
Proof.
  split; [reflexivity|]. split; [reflexivity|].
  split; [vm_compute; discriminate|].
  destruct (disable_aborts_without_message_columns files operator accepting
              serialize_xml "disable.csv" ["serial_number"] ["C02ABC123"]
              [["C02ABC124"]] initial eq_refl eq_refl)
    as (key & w' & H1 & _ & _ & H4).
  - vm_compute. discriminate.
  - exists key, w'. split; [exact H1 | exact H4].
Defined.

(** The same run, evaluated. *)
Example disable_csv_run :
  main files operator accepting serialize_xml (Some "disable.csv") (Some "disable")
    initial
  = (Raise (KeyError "message"),
     {| trace := [Prompted "API Username: "; Getpass]; heap := [] |}).
Proof. vm_compute. reflexivity. Qed.

(** C7. On a file with no record after the header (an empty file, or the
    header alone) the run prompts for the credentials, prints that there
    are no commands to send and exits with status 1: no request is posted,
    the exit is a [SystemExit], which is no [Exception] that a row's guard
    would catch, and the line printed is not the diagnostic of any row. *)
Theorem no_items_is_terminal fs keyboard remote tostring csv_file mode records w :
  valid_mode mode = true ->
  fs csv_file = Some records ->
  (length records <= 1)%nat ->
  exists events,
    main fs keyboard remote tostring (Some csv_file) (Some mode) w
    = (Raise (SystemExit 1), {| trace := trace w ++ events; heap := heap w |}) /\
    events = [Prompted "API Username: "; Getpass;
              Printed "No iPads listed in CSV. No commands to send."] /\
    posts_of events = [] /\
    is_Exception (SystemExit 1) = false /\
    forall serial_number, Printed (failed_to_send serial_number) ∉ events.
Proof.
  intros Hmode Hfs Hlen.
  assert (Hnone : read_device_list records = []).
  { destruct records as [|r [|r' rs]]; cbn in *; [reflexivity | reflexivity | lia]. }
  rewrite (main_no_items fs keyboard remote tostring csv_file mode records w
             Hmode Hfs Hnone).
  eexists. split; [reflexivity|]. split; [reflexivity|].
  split; [reflexivity|]. split; [reflexivity|].
  intros serial_number Hin.
  rewrite !elem_of_cons in Hin. rewrite elem_of_nil in Hin.
  destruct Hin as [H|[H|[H|[]]]]; discriminate H.
Qed.

(** The run on a file that holds the header alone. *)
Lemma no_items_is_terminal_witness :
  valid_mode "enable" = true /\
  files "header.csv" = Some header_only_csv /\
  (length header_only_csv <= 1)%nat /\
  main files operator accepting serialize_xml (Some "header.csv") (Some "enable") initial
  = (Raise (SystemExit 1),
     {| trace := [Prompted "API Username: "; Getpass;
                  Printed "No iPads listed in CSV. No commands to send."];
        heap := [] |}).
Proof.
  split; [reflexivity|]. split; [reflexivity|]. split; [cbn; lia|].
  destruct (no_items_is_terminal files operator accepting serialize_xml "header.csv"
              "enable" header_only_csv initial eq_refl eq_refl)
    as (events & H1 & -> & _).
  - cbn. lia.
  - exact H1.
Defined.

(** The empty file. *)
Example empty_file_run :
  main files operator accepting serialize_xml (Some "empty.csv") (Some "disable") initial
  = (Raise (SystemExit 1),
     {| trace := [Prompted "API Username: "; Getpass;
                  Printed "No iPads listed in CSV. No commands to send."];
        heap := [] |}).
Proof. vm_compute. reflexivity. Qed.

(** The pre-check counts the records of [csv.reader], and a blank line is
    one: a header followed by a blank line passes it, and the loop then
    finds no row. *)
Example blank_line_after_header_run :
  main files operator accepting serialize_xml (Some "blank.csv") (Some "enable") initial
  = (Return tt, {| trace := [Prompted "API Username: "; Getpass]; heap := [] |}).
Proof. vm_compute. reflexivity. Qed.

(** * Further properties *)

(** ** The whole run, case by case *)

Lemma has_key_lookup row key :
  has_key row key = true -> row !! key = Some (cell row key).
Proof. unfold has_key, cell. destruct (row !! key); [reflexivity | discriminate]. Qed.

Lemma has_key_lookup_None row key :
  has_key row key = false -> row !! key = None.
Proof. unfold has_key. destruct (row !! key); [discriminate | reflexivity]. Qed.

(** A row of a file whose header lacks a column raises on the first such
    column, before anything is done. *)
Lemma process_row_first_missing remote tostring mode creds fieldnames r key w :
  first_missing_column fieldnames = Some key ->
  process_row remote tostring mode creds (dict_row fieldnames r) w
  = (Raise (KeyError key), w).
Proof.
  unfold first_missing_column, process_row, getitem, bind, ret, raise.
  destruct (has_column fieldnames "serial_number") eqn:Hs; cbn [negb].
  2: { intros [= <-]. rewrite <- (dict_row_has_key fieldnames r) in Hs.
       rewrite (has_key_lookup_None _ _ Hs). reflexivity. }
  rewrite <- (dict_row_has_key fieldnames r) in Hs.
  rewrite (has_key_lookup _ _ Hs).
  destruct (has_column fieldnames "message") eqn:Hm; cbn [negb].
  2: { intros [= <-]. rewrite <- (dict_row_has_key fieldnames r) in Hm.
       rewrite (has_key_lookup_None _ _ Hm). reflexivity. }
  rewrite <- (dict_row_has_key fieldnames r) in Hm.
  rewrite (has_key_lookup _ _ Hm).
  destruct (has_column fieldnames "phone_number") eqn:Hp; cbn [negb].
  2: { intros [= <-]. rewrite <- (dict_row_has_key fieldnames r) in Hp.
       rewrite (has_key_lookup_None _ _ Hp). reflexivity. }
  discriminate.
Qed.

Lemma first_missing_column_None fieldnames :
  first_missing_column fieldnames = None ->
  has_column fieldnames "serial_number" = true /\
  has_column fieldnames "message" = true /\
  has_column fieldnames "phone_number" = true.
Proof.
  unfold first_missing_column.
  destruct (has_column fieldnames "serial_number"),
    (has_column fieldnames "message"), (has_column fieldnames "phone_number");
    cbn; intros H; try discriminate H; auto.
Qed.


(** The loop over the rows of a file, case by case. *)
Lemma for_rows_dict_rows remote tostring mode creds fieldnames records w :
  valid_mode mode = true ->
  exists h',
    for_rows remote tostring mode creds (dict_rows fieldnames records) w =
    match first_missing_column fieldnames, dict_rows fieldnames records with
    | None, rows =>
        (Return tt,
         {| trace := trace w ++
                     concat (batch_events remote tostring mode creds rows
                               (posts_of (trace w)));
            heap := heap w ++ h' |})
    | Some _, [] => (Return tt, w)
    | Some key, _ :: _ => (Raise (KeyError key), w)
    end.
Proof.
  intros Hmode. destruct (first_missing_column fieldnames) as [key|] eqn:Hmiss.
  - exists []. destruct (dict_rows fieldnames records) as [|row more] eqn:Hd;
      [reflexivity|].
    destruct (dict_rows_head _ _ _ _ Hd) as [r ->].
    cbn [for_rows]. unfold bind.
    rewrite (process_row_first_missing remote tostring mode creds fieldnames r key w Hmiss).
    reflexivity.
  - destruct (first_missing_column_None _ Hmiss) as (Hs & Hm & Hp).
    apply (for_rows_spec remote tostring mode creds _ Hmode
             (dict_rows_has_columns fieldnames records Hs Hm Hp)).
Qed.

(** [main] on arguments that pass its checks, in one equation. *)
Lemma main_well_configured fs keyboard remote tostring csv_file mode records w :
  valid_mode mode = true ->
  fs csv_file = Some records ->
  let prompted :=
    {| trace := trace w ++ [Prompted "API Username: "; Getpass]; heap := heap w |} in
  exists h',
    main fs keyboard remote tostring (Some csv_file) (Some mode) w =
    match records with
    | [] | [_] =>
        (Raise (SystemExit 1),
         {| trace := trace w ++ [Prompted "API Username: "; Getpass;
                                 Printed "No iPads listed in CSV. No commands to send."];
            heap := heap w |})
    | fieldnames :: data =>
        match first_missing_column fieldnames, dict_rows fieldnames data with
        | None, rows =>
            (Return tt,
             {| trace := trace prompted ++
                         concat (batch_events remote tostring mode keyboard rows
                                   (posts_of (trace w)));
                heap := heap w ++ h' |})
        | Some _, [] => (Return tt, prompted)
        | Some key, _ :: _ => (Raise (KeyError key), prompted)
        end
    end.
Proof.
  intros Hmode Hfs prompted.
  destruct records as [|fieldnames [|first rest]].
  - exists []. apply (main_no_items fs keyboard remote tostring csv_file mode [] w Hmode Hfs eq_refl).
  - exists []. apply (main_no_items fs keyboard remote tostring csv_file mode [fieldnames] w Hmode Hfs eq_refl).
  - rewrite (main_dispatches fs keyboard remote tostring csv_file mode fieldnames first
               rest w Hmode Hfs).
    destruct (for_rows_dict_rows remote tostring mode keyboard fieldnames (first :: rest)
                prompted Hmode) as [h' E].
    exists h'. fold prompted. rewrite E.
    replace (posts_of (trace prompted)) with (posts_of (trace w)); [reflexivity|].
    unfold prompted. cbn [trace]. rewrite posts_of_app. cbn. symmetry. apply app_nil_r.
Qed.

(** [main] on arguments that fail its checks. *)
Lemma main_ill_configured fs keyboard remote tostring csv_file mode w :
  well_configured fs csv_file mode = false ->
  exists line,
    main fs keyboard remote tostring csv_file mode w =
    (Raise (SystemExit 1), {| trace := trace w ++ [Printed line]; heap := heap w |}).
Proof.
  unfold well_configured, main. fold (valid_mode (default "" mode)).
  destruct mode as [mode|]; [|intros _; eexists; reflexivity].
  fold (valid_mode mode). destruct (valid_mode mode); [|intros _; eexists; reflexivity].
  destruct csv_file as [csv_file|]; [|intros _; eexists; reflexivity].
  destruct (fs csv_file); [discriminate|]. intros _. eexists. reflexivity.
Qed.

(** ** Configuration and credentials *)

(** X1. When the arguments fail a check of [main] (no mode, a mode other
    than the two, no path, no file at the path) the run prints one line and
    exits with status 1: the credentials are not asked for and nothing is
    posted. *)
Theorem configuration_error_exits_before_prompt fs keyboard remote tostring
    csv_file mode w :
  well_configured fs csv_file mode = false ->
  exists line w',
    main fs keyboard remote tostring csv_file mode w = (Raise (SystemExit 1), w') /\
    trace w' = trace w ++ [Printed line] /\
    posts_of (trace w') = posts_of (trace w).
Proof.
  intros Hbad.
  destruct (main_ill_configured fs keyboard remote tostring csv_file mode w Hbad)
    as [line E].
  eexists _, _. split; [exact E|]. split; [reflexivity|].
  cbn [trace]. rewrite posts_of_app. cbn. apply app_nil_r.
Qed.

(** A mode in capitals is not one of the two. *)
Lemma configuration_error_exits_before_prompt_witness :
  well_configured files (Some "enable.csv") (Some "Enable") = false /\
  exists line w',
    main files operator accepting serialize_xml (Some "enable.csv") (Some "Enable")
      initial = (Raise (SystemExit 1), w') /\
    trace w' = [Printed line].
Proof.
  split; [reflexivity|].
  destruct (configuration_error_exits_before_prompt files operator accepting
              serialize_xml (Some "enable.csv") (Some "Enable") initial eq_refl)
    as (line & w' & H1 & H2 & _).
  exists line, w'. split; [exact H1 | exact H2].
Defined.

(** X2. When the arguments pass the checks, the first two things the run
    does are the two prompts of [get_credentials], the user name and then
    the password, and it never prompts again: this holds also when the
    file then turns out to hold no device or to lack a column. *)
Theorem credentials_are_asked_once fs keyboard remote tostring csv_file mode w :
  well_configured fs csv_file mode = true ->
  exists result w' later,
    main fs keyboard remote tostring csv_file mode w = (result, w') /\
    trace w' = trace w ++ Prompted "API Username: " :: Getpass :: later /\
    forallb (fun ev => negb (is_prompt ev)) later = true.
Proof.
  unfold well_configured.
  destruct mode as [mode|]; [|discriminate].
  destruct csv_file as [csv_file|]; [|discriminate].
  destruct (valid_mode mode) eqn:Hmode; [|discriminate].
  destruct (fs csv_file) as [records|] eqn:Hfs; [|discriminate]. intros _.
  destruct (main_well_configured fs keyboard remote tostring csv_file mode records w
              Hmode Hfs) as [h' E].
  cbn zeta in E. rewrite E. clear E.
  destruct records as [|fieldnames [|first rest]].
  - eexists _, _, [_]. split; [reflexivity|]. split; reflexivity.
  - eexists _, _, [_]. split; [reflexivity|]. split; reflexivity.
  - destruct (first_missing_column fieldnames).
    + destruct (dict_rows fieldnames (first :: rest));
        eexists _, _, []; (split; [reflexivity|]); split; reflexivity.
    + eexists _, _, _. split; [reflexivity|]. cbn [trace].
      split; [rewrite <- app_assoc; reflexivity|].
      generalize (posts_of (trace w)).
      induction (dict_rows fieldnames (first :: rest)) as [|row more IH]; intros hist;
        [reflexivity|].
      cbn [batch_events concat]. rewrite forallb_app, IH, andb_true_r.
      destruct (row_events_shape remote tostring mode keyboard row hist) as [report ->].
      cbn. clear. induction report; [reflexivity | assumption].
Qed.

Lemma credentials_are_asked_once_witness :
  well_configured files (Some "header.csv") (Some "disable") = true /\
  exists result w' later,
    main files operator accepting serialize_xml (Some "header.csv") (Some "disable")
      initial = (result, w') /\
    trace w' = Prompted "API Username: " :: Getpass :: later.
Proof.
  split; [reflexivity|].
  destruct (credentials_are_asked_once files operator accepting serialize_xml
              (Some "header.csv") (Some "disable") initial eq_refl)
    as (result & w' & later & H1 & H2 & _).
  exists result, w', later. split; [exact H1 | exact H2].
Defined.

(** ** How a run can end *)

Lemma well_configured_inv fs csv_file mode :
  well_configured fs csv_file mode = true ->
  exists path m records,
    csv_file = Some path /\ mode = Some m /\ valid_mode m = true /\
    fs path = Some records.
Proof.
  unfold well_configured.
  destruct mode as [m|]; [|discriminate].
  destruct csv_file as [path|]; [|discriminate].
  destruct (valid_mode m) eqn:Hm; [|discriminate].
  destruct (fs path) as [records|] eqn:Hfs; [|discriminate].
  intros _. exists path, m, records. auto.
Qed.





(** X5. In either mode, on a file with at least one row whose header lacks
    one of [serial_number], [message] and [phone_number], the run ends right
    after the prompts with the [KeyError] of the first of these columns, in
    that order, that the header lacks. *)
Theorem missing_column_aborts_run fs keyboard remote tostring csv_file mode
    fieldnames data key w :
  valid_mode mode = true ->
  fs csv_file = Some (fieldnames :: data) ->
  first_missing_column fieldnames = Some key ->
  dict_rows fieldnames data <> [] ->
  main fs keyboard remote tostring (Some csv_file) (Some mode) w =
  (Raise (KeyError key),
   {| trace := trace w ++ [Prompted "API Username: "; Getpass]; heap := heap w |}).
Proof.
  intros Hmode Hfs Hmiss Hrows.
  destruct (main_well_configured fs keyboard remote tostring csv_file mode _ w Hmode Hfs)
    as [h' E].
  cbn zeta in E. rewrite E. clear E.
  destruct data as [|first rest]; [contradiction Hrows; reflexivity|].
  rewrite Hmiss. destruct (dict_rows fieldnames (first :: rest)); [contradiction|].
  reflexivity.
Qed.

Lemma missing_column_aborts_run_witness :
  valid_mode "enable" = true /\
  more_files "no_phone.csv" = Some (["serial_number"; "message"] :: [["C02ABC123"; "Lost"]]) /\
  first_missing_column ["serial_number"; "message"] = Some "phone_number" /\
  dict_rows ["serial_number"; "message"] [["C02ABC123"; "Lost"]] <> [] /\
  main more_files operator accepting serialize_xml (Some "no_phone.csv")
    (Some "enable") initial
  = (Raise (KeyError "phone_number"),
     {| trace := [Prompted "API Username: "; Getpass]; heap := [] |}).
Proof.
  split; [reflexivity|]. split; [reflexivity|]. split; [reflexivity|].
  split; [vm_compute; discriminate|].
  apply (missing_column_aborts_run more_files operator accepting serialize_xml
           "no_phone.csv" "enable" ["serial_number"; "message"]
           [["C02ABC123"; "Lost"]] "phone_number" initial eq_refl eq_refl eq_refl).
  vm_compute. discriminate.
Defined.

(** ** Blank lines *)

Lemma dict_rows_nonblank fieldnames records :
  dict_rows fieldnames (nonblank records) = dict_rows fieldnames records.
Proof.
  unfold nonblank. induction records as [|[|c r] rest IH]; cbn; [reflexivity | exact IH |].
  f_equal. exact IH.
Qed.


Lemma dict_rows_blank fieldnames n :
  dict_rows fieldnames (replicate n []) = [].
Proof. induction n as [|n IH]; [reflexivity | exact IH]. Qed.

(** X6. The pre-check of lines 160-168 counts blank lines as devices.  On a
    file whose header is followed by blank lines only, the run does not
    report that there is nothing to send: it asks for the credentials, finds
    no row and ends normally, having printed and posted nothing, whatever
    the header is. *)
Theorem blank_lines_pass_the_empty_check fs keyboard remote tostring csv_file mode
    fieldnames n w :
  valid_mode mode = true ->
  fs csv_file = Some (fieldnames :: replicate (S n) []) ->
  main fs keyboard remote tostring (Some csv_file) (Some mode) w =
  (Return tt,
   {| trace := trace w ++ [Prompted "API Username: "; Getpass]; heap := heap w |}).
Proof.
  intros Hmode Hfs. cbn [replicate] in Hfs.
  rewrite (main_dispatches fs keyboard remote tostring csv_file mode fieldnames []
             (replicate n []) w Hmode Hfs).
  change ([] :: replicate n []) with (replicate (S n) ([] : record)).
  rewrite dict_rows_blank. reflexivity.
Qed.

Lemma blank_lines_pass_the_empty_check_witness :
  valid_mode "enable" = true /\
  files "blank.csv" = Some (["serial_number"; "message"; "phone_number"] :: replicate 1 []) /\
  main files operator accepting serialize_xml (Some "blank.csv") (Some "enable") initial
  = (Return tt, {| trace := [Prompted "API Username: "; Getpass]; heap := [] |}).
Proof.
  split; [reflexivity|]. split; [reflexivity|].
  apply (blank_lines_pass_the_empty_check files operator accepting serialize_xml
           "blank.csv" "enable" ["serial_number"; "message"; "phone_number"] 0 initial
           eq_refl eq_refl).
Defined.

(** X7. Blank lines among the records change nothing: a file and the same
    file without its blank lines, when it still holds a record after the
    header, give the same run, for every mode argument. *)
Theorem blank_lines_are_skipped fs keyboard remote tostring csv_file csv_file'
    mode fieldnames data w :
  fs csv_file = Some (fieldnames :: data) ->
  fs csv_file' = Some (fieldnames :: nonblank data) ->
  nonblank data <> [] ->
  main fs keyboard remote tostring (Some csv_file) mode w =
  main fs keyboard remote tostring (Some csv_file') mode w.
Proof.
  intros Hfs Hfs' Hdata.
  destruct mode as [mode|]; [|reflexivity].
  destruct (valid_mode mode) eqn:Hmode.
  - destruct (nonblank data) as [|r rs] eqn:Hnb; [contradiction|].
    destruct data as [|d ds]; [discriminate Hnb|].
    rewrite (main_dispatches fs keyboard remote tostring csv_file mode fieldnames d ds
               w Hmode Hfs).
    rewrite (main_dispatches fs keyboard remote tostring csv_file' mode fieldnames r rs
               w Hmode Hfs').
    rewrite <- Hnb, dict_rows_nonblank. reflexivity.
  - unfold main. fold (valid_mode mode). rewrite Hmode. reflexivity.
Qed.

Lemma blank_lines_are_skipped_witness :
  more_files "gappy.csv" = Some (["serial_number"; "message"; "phone_number"] :: tail gappy_csv) /\
  more_files "enable.csv"
  = Some (["serial_number"; "message"; "phone_number"] :: nonblank (tail gappy_csv)) /\
  nonblank (tail gappy_csv) <> [] /\
  main more_files operator second_fails serialize_xml (Some "gappy.csv") (Some "enable")
    initial
  = main more_files operator second_fails serialize_xml (Some "enable.csv") (Some "enable")
      initial.
Proof.
  split; [reflexivity|]. split; [reflexivity|]. split; [vm_compute; discriminate|].
  apply (blank_lines_are_skipped more_files operator second_fails serialize_xml
           "gappy.csv" "enable.csv" (Some "enable")
           ["serial_number"; "message"; "phone_number"] (tail gappy_csv) initial
           eq_refl eq_refl).
  vm_compute. discriminate.
Defined.



(** ** From the cells of a record to the cells of a row *)

Lemma foldl_insert_cells_other (l : list (string * string)) :
  forall (d : gmap string value) key,
    key ∉ l.*1 ->
    foldl (fun d kv => <[kv.1 := Some kv.2]> d) d l !! key = d !! key.
Proof.
  induction l as [|[k v] l IH]; intros d key Hout; cbn [foldl]; [reflexivity|].
  cbn [fmap list_fmap fst] in Hout. apply not_elem_of_cons in Hout as [Hne Hout].
  rewrite IH by exact Hout. cbn [fst snd]. apply lookup_insert_ne. congruence.
Qed.

Lemma foldl_insert_None_other (l : list string) :
  forall (d : gmap string value) key,
    key ∉ l ->
    foldl (fun d k => <[k := None]> d) d l !! key = d !! key.
Proof.
  induction l as [|k l IH]; intros d key Hout; cbn [foldl]; [reflexivity|].
  apply not_elem_of_cons in Hout as [Hne Hout].
  rewrite IH by exact Hout. apply lookup_insert_ne. congruence.
Qed.

Lemma foldl_insert_cells_at (l : list (string * string)) :
  forall (d : gmap string value) i key c,
    NoDup l.*1 ->
    l !! i = Some (key, c) ->
    foldl (fun d kv => <[kv.1 := Some kv.2]> d) d l !! key = Some (Some c).
Proof.
  induction l as [|[k v] l IH]; intros d i key c Hnd Hi; [discriminate Hi|].
  cbn [fmap list_fmap fst] in Hnd. apply NoDup_cons in Hnd as [Hout Hnd].
  cbn [foldl fst snd]. destruct i as [|i].
  - injection Hi as -> ->. rewrite foldl_insert_cells_other by exact Hout.
    apply lookup_insert_eq.
  - apply (IH _ i); assumption.
Qed.

Lemma foldl_insert_None_at (l : list string) :
  forall (d : gmap string value) key,
    key ∈ l ->
    foldl (fun d k => <[k := None]> d) d l !! key = Some None.
Proof.
  induction l as [|k l IH]; intros d key Hin; [by apply elem_of_nil in Hin|].
  cbn [foldl]. destruct (decide (key ∈ l)) as [Hl|Hl].
  - apply IH, Hl.
  - apply elem_of_cons in Hin as [->|Hin]; [|contradiction].
    rewrite foldl_insert_None_other by exact Hl. apply lookup_insert_eq.
Qed.

(** X9. When the header names no column twice, the cell that a row gives
    for the column at position [i] of the header is the cell at position
    [i] of the record, and [None] when the record is too short to have
    one. *)
Theorem dict_row_lookup fieldnames row i key :
  NoDup fieldnames ->
  fieldnames !! i = Some key ->
  dict_row fieldnames row !! key = Some (row !! i).
Proof.
  intros Hnd Hi. unfold dict_row.
  assert (Hzip : NoDup (zip fieldnames row).*1).
  { rewrite fst_zip_take. pose proof Hnd as Hnd'.
    rewrite <- (take_drop (length row) fieldnames) in Hnd'.
    apply NoDup_app in Hnd' as [Htake _]. exact Htake. }
  destruct (row !! i) as [c|] eqn:Hrow.
  - assert (Hat : zip fieldnames row !! i = Some (key, c)).
    { rewrite lookup_zip_with, Hi. cbn. rewrite Hrow. reflexivity. }
    pose proof (foldl_insert_cells_at _ ∅ i key c Hzip Hat) as Hcell.
    destruct (length row <? length fieldnames)%nat; [|exact Hcell].
    rewrite foldl_insert_None_other; [exact Hcell|].
    intros Hin. apply list_elem_of_lookup in Hin as [j Hj].
    rewrite lookup_drop in Hj.
    apply lookup_lt_Some in Hrow.
    pose proof (NoDup_lookup _ _ _ _ Hnd Hi Hj). lia.
  - apply lookup_ge_None in Hrow. apply lookup_lt_Some in Hi as Hlt.
    destruct (Nat.ltb_spec (length row) (length fieldnames)) as [_|Hge]; [|lia].
    apply foldl_insert_None_at. apply list_elem_of_lookup.
    exists (i - length row)%nat. rewrite lookup_drop.
    rewrite <- Hi. f_equal. lia.
Qed.

(** The third record of [sound_csv]: its fourth cell is the [play_sound]
    of its row. *)
Lemma dict_row_lookup_witness :
  NoDup ["serial_number"; "message"; "phone_number"; "play_sound"] /\
  ["serial_number"; "message"; "phone_number"; "play_sound"] !! 3%nat = Some "play_sound" /\
  row_False !! "play_sound" = Some (Some "False").
Proof.
  assert (Hnd : NoDup ["serial_number"; "message"; "phone_number"; "play_sound"]).
  { repeat (apply NoDup_cons; split;
              [rewrite ?elem_of_cons, elem_of_nil; intros H; decompose [or] H;
               discriminate || contradiction |]).
    apply NoDup_nil_2. }
  split; [exact Hnd|]. split; [reflexivity|].
  exact (dict_row_lookup ["serial_number"; "message"; "phone_number"; "play_sound"]
           ["C02ABC125"; "Lost"; "5551234567"; "False"] 3 "play_sound" Hnd eq_refl).
Defined.

(** ** What a row's command depends on *)

(** X10. In Disable mode the command of a row is built from its serial
    number alone: two rows that have the three columns and the same serial
    number, whatever their other cells, end the same way and leave the same
    trace, with the one Disable command for that serial number posted. *)
Theorem disable_reads_serial_number_only remote tostring creds row row' w :
  has_columns row = true ->
  has_columns row' = true ->
  cell row "serial_number" = cell row' "serial_number" ->
  let run := process_row remote tostring "disable" creds row w in
  let run' := process_row remote tostring "disable" creds row' w in
  run.1 = Return tt /\
  run'.1 = Return tt /\
  trace run.2 = trace run'.2 /\
  posts_of (trace run.2) =
    posts_of (trace w) ++
    [command_request tostring creds (disable_document (cell row "serial_number"))].
Proof.
  intros Hcols Hcols' Hserial.
  destruct (process_row_spec remote tostring "disable" creds row w eq_refl Hcols)
    as [h E].
  destruct (process_row_spec remote tostring "disable" creds row' w eq_refl Hcols')
    as [h' E'].
  cbn zeta. rewrite E, E'. cbn [fst snd trace].
  split; [reflexivity|]. split; [reflexivity|]. split.
  - unfold row_events, row_document. cbn [String.eqb Ascii.eqb Bool.eqb].
    rewrite Hserial. reflexivity.
  - rewrite posts_of_app, posts_of_row_events. reflexivity.
Qed.

(** The first row of [enable_csv] and the row of [sound_csv] for the same
    device. *)
Lemma disable_reads_serial_number_only_witness :
  let row := dict_row ["serial_number"; "message"; "phone_number"]
               ["C02ABC123"; "Lost"; "5551234567"] in
  let row' := dict_row ["serial_number"; "message"; "phone_number"; "play_sound"]
                ["C02ABC123"; "Found"; "0"; "false"] in
  has_columns row = true /\
  has_columns row' = true /\
  cell row "serial_number" = cell row' "serial_number" /\
  trace (process_row accepting serialize_xml "disable" operator row initial).2 =
  trace (process_row accepting serialize_xml "disable" operator row' initial).2.
Proof.
  cbn zeta. split; [reflexivity|]. split; [reflexivity|]. split; [reflexivity|].
  apply (disable_reads_serial_number_only accepting serialize_xml operator
           (dict_row ["serial_number"; "message"; "phone_number"]
              ["C02ABC123"; "Lost"; "5551234567"])
           (dict_row ["serial_number"; "message"; "phone_number"; "play_sound"]
              ["C02ABC123"; "Found"; "0"; "false"])
           initial eq_refl eq_refl eq_refl).
Defined.

(** X11. Every request of a run goes to the one resource of [JAMF_URL] and
    carries the credentials typed at the prompts, whatever the arguments,
    the file and the answers of the service are. *)
Theorem every_request_uses_the_typed_credentials fs keyboard remote tostring
    csv_file mode w :
  exists sent,
    posts_of (trace (main fs keyboard remote tostring csv_file mode w).2) =
    posts_of (trace w) ++ sent /\
    Forall (fun req =>
              url req = "https://myorg.jamfcloud.com/JSSResource/mobiledevicecommands/command"
              /\ auth req = keyboard) sent.
Proof.
  destruct (well_configured fs csv_file mode) eqn:Hcfg.
  - destruct (well_configured_inv _ _ _ Hcfg) as (path & m & records & -> & -> & Hm & Hfs).
    destruct (main_well_configured fs keyboard remote tostring path m records w Hm Hfs)
      as [h' E].
    cbn zeta in E. rewrite E. clear E.
    assert (Hnone : forall evs,
              posts_of evs = [] ->
              exists sent,
                posts_of (trace w ++ evs) = posts_of (trace w) ++ sent /\
                Forall (fun req =>
                          url req = "https://myorg.jamfcloud.com/JSSResource/mobiledevicecommands/command"
                          /\ auth req = keyboard) sent).
    { intros evs Hevs. exists []. rewrite posts_of_app, Hevs. split; [reflexivity|].
      constructor. }
    destruct records as [|fieldnames [|first rest]];
      [apply Hnone; reflexivity | apply Hnone; reflexivity |].
    destruct (first_missing_column fieldnames).
    + destruct (dict_rows fieldnames (first :: rest)); apply Hnone; reflexivity.
    + cbn [snd trace]. rewrite <- app_assoc, !posts_of_app, batch_events_posts.
      eexists. split; [reflexivity|]. cbn [posts_of omap list_omap app].
      apply Forall_fmap, Forall_forall. intros row _. cbn.
      split; [reflexivity | destruct keyboard; reflexivity].
  - destruct (main_ill_configured fs keyboard remote tostring csv_file mode w Hcfg)
      as [line E].
    rewrite E. exists []. cbn [snd trace]. rewrite posts_of_app. split; [reflexivity|].
    constructor.
Qed.

(** X12. When the service answers the command of a row, whatever the
    status, the row is done as far as the loop is concerned: the status
    code returned by the client is dropped and the loop prints no
    diagnostic of its own, so that the only lines about a row answered
    with a status from 400 to 599 are the two of the client, the error and
    the payload. *)
Theorem answered_row_is_reported_by_the_client_only remote tostring mode creds
    row w resp :
  valid_mode mode = true ->
  has_columns row = true ->
  remote (posts_of (trace w)) (command_request tostring creds (row_document mode row))
  = inr resp ->
  exists w',
    process_row remote tostring mode creds row w = (Return tt, w') /\
    trace w' =
      trace w ++
      Posted (command_request tostring creds (row_document mode row)) ::
      (if (400 <=? status_code resp) && (status_code resp <? 600)
       then [Printed ("Error: " ++ http_error_msg resp);
             Printed (tostring (row_document mode row))]
       else []).
Proof.
  intros Hmode Hcols Hresp.
  destruct (process_row_spec remote tostring mode creds row w Hmode Hcols) as [h' E].
  eexists. split; [exact E|]. cbn [trace]. unfold row_events. cbn zeta.
  rewrite Hresp, client_report_cases. reflexivity.
Qed.

(** A row of [enable_csv] answered with 500. *)
Lemma answered_row_is_reported_by_the_client_only_witness :
  valid_mode "enable" = true /\
  has_columns row_empty_message = true /\
  exists w',
    process_row (answering 500 "Internal Server Error") serialize_xml "enable" operator
      row_empty_message initial = (Return tt, w') /\
    length (prints_of (trace w')) = 2%nat.
Proof.
  split; [reflexivity|]. split; [reflexivity|].
  destruct (answered_row_is_reported_by_the_client_only
              (answering 500 "Internal Server Error") serialize_xml "enable" operator
              row_empty_message initial _ eq_refl eq_refl eq_refl)
    as (w' & H1 & H2).
  exists w'. split; [exact H1|]. rewrite H2. reflexivity.
Defined.
